(** * A shallow embedding of examples/scripts/analyze_expression.py

    The module filters a table of differential-expression results, computes a
    hypergeometric pathway enrichment and wraps the filter in a small analyzer
    object.  Python values are modelled as follows:
    - a float cell of a pandas column is an [option Q]: [Some q] for a number,
      [None] for a missing value (NaN), which compares false with everything;
    - a DataFrame is its list of column names and its list of rows;
    - a Python exception is an [Err] of the [result] monad below;
    - [scipy.stats.hypergeom.sf] is computed exactly over the rationals, and
      returns [None] (NaN) when its shape parameters fail scipy's check. *)

From Stdlib Require Import List Bool Arith Lia ZArith QArith Qabs Qminmax String.
Import ListNotations.
Open Scope string_scope.

(** ** Exceptions and the error monad *)

(** The exceptions the program can raise, together with the ones the
    specification names. *)
Inductive PyError :=
| TypeError
| KeyError
| MissingFieldError
| InvalidDistributionParameters
| NotYetAnalyzedError.

Inductive result (A : Type) :=
| Ok (a : A)
| Err (e : PyError).
Arguments Ok {A} a.
Arguments Err {A} e.

Definition bind {A B} (m : result A) (k : A -> result B) : result B :=
  match m with
  | Ok a => k a
  | Err e => Err e
  end.

Notation "x <- m ;; k" := (bind m (fun x => k))
  (at level 61, m at next level, right associativity).

(** ** Float cells *)

Definition Qltb (x y : Q) : bool := negb (Qle_bool y x).

(** [series < t], element-wise; NaN compares false. *)
Definition cell_lt (c : option Q) (t : Q) : bool :=
  match c with Some x => Qltb x t | None => false end.

(** [series > t], element-wise; NaN compares false. *)
Definition cell_gt (c : option Q) (t : Q) : bool :=
  match c with Some x => Qltb t x | None => false end.

(** [abs(series)], element-wise; abs(NaN) is NaN. *)
Definition cell_abs (c : option Q) : option Q := option_map Qabs c.

(** ** DataFrames of gene records *)

Record GeneRecord := {
  gene_id : string;
  p_value : option Q;
  fold_change : option Q
}.

Record DataFrame := {
  columns : list string;
  rows : list GeneRecord
}.

(** [data[c]]: a missing column raises KeyError. *)
Definition has_column (df : DataFrame) (c : string) : bool :=
  existsb (String.eqb c) (columns df).

Definition get_column (df : DataFrame) (c : string) : result unit :=
  if has_column df c then Ok tt else Err KeyError.

(** [len(df)] is the number of rows. *)
Definition df_len (df : DataFrame) : nat := List.length (rows df).

(** [df[mask]] keeps the columns and the rows where the mask is true, in
    order. *)
Definition df_mask (df : DataFrame) (mask : GeneRecord -> bool) : DataFrame :=
  {| columns := columns df; rows := List.filter mask (rows df) |}.

Definition default_p_threshold : Q := 5 # 100.
Definition default_fc_threshold : Q := 3 # 2.

(** [filter_significant_genes(data, p_threshold, fc_threshold)], lines 18-23. *)
Definition filter_significant_genes (data : DataFrame) (p_threshold fc_threshold : Q)
  : result DataFrame :=
  _ <- get_column data "p_value" ;;
  _ <- get_column data "fold_change" ;;
  Ok (df_mask data (fun r =>
        cell_lt (p_value r) p_threshold &&
        cell_gt (cell_abs (fold_change r)) fc_threshold)).

(** ** The analyzer object, lines 70-90 *)

Record ExpressionAnalyzer := {
  data : DataFrame;
  significant_genes : option DataFrame   (* [None] is Python's None *)
}.

Definition ExpressionAnalyzer_init (d : DataFrame) : ExpressionAnalyzer :=
  {| data := d; significant_genes := None |}.

(** [run_analysis] returns the updated object and the method's return value;
    an exception leaves the object as it was. *)
Definition run_analysis (self : ExpressionAnalyzer) (p_threshold fc_threshold : Q)
  : result (ExpressionAnalyzer * DataFrame) :=
  sig <- filter_significant_genes (data self) p_threshold fc_threshold ;;
  Ok ({| data := data self; significant_genes := Some sig |}, sig).

Record SummaryStats := {
  s_total_genes : nat;
  s_significant_genes : nat;
  s_upregulated : nat;
  s_downregulated : nat
}.

(** [get_summary_stats]: the dict literal is evaluated left to right;
    [len(None)] raises TypeError. *)
Definition get_summary_stats (self : ExpressionAnalyzer) : result SummaryStats :=
  let total := df_len (data self) in
  match significant_genes self with
  | None => Err TypeError
  | Some sg =>
      _ <- get_column sg "fold_change" ;;
      let up := df_len (df_mask sg (fun r => cell_gt (fold_change r) 0)) in
      _ <- get_column sg "fold_change" ;;
      let down := df_len (df_mask sg (fun r => cell_lt (fold_change r) 0)) in
      Ok {| s_total_genes := total; s_significant_genes := df_len sg;
            s_upregulated := up; s_downregulated := down |}
  end.

(** ** The hypergeometric survival function *)

(** Binomial coefficients, by Pascal's rule. *)
Fixpoint choose (n k : nat) : nat :=
  match n, k with
  | _, O => 1
  | O, S _ => 0
  | S n', S k' => choose n' k' + choose n' (S k')
  end.

(** [sum_to f n = f 0 + f 1 + ... + f n]. *)
Fixpoint sum_to (f : nat -> nat) (n : nat) : nat :=
  match n with
  | O => f O
  | S m => sum_to f m + f (S m)
  end.

(** [choose good j * choose (M - good) (N - j)]: the number of draws of
    [N] items out of [M] with exactly [j] of the [good] ones, for [j <= N]. *)
Definition hypergeom_weight (M good N j : nat) : nat :=
  choose good j * choose (M - good) (N - j).

(** Numerator of [P(X > q)]: the weights of the outcomes [j] with [q < j]. *)
Definition hypergeom_tail (q : Z) (M good N : nat) : nat :=
  sum_to (fun j => if Z.ltb q (Z.of_nat j) then hypergeom_weight M good N j else 0%nat) N.

(** scipy's [hypergeom._argcheck(M, n, N)]: [M > 0], [0 <= n <= M], [0 <= N <= M]. *)
Definition hypergeom_argcheck (M good N : nat) : bool :=
  Nat.ltb 0 M && Nat.leb good M && Nat.leb N M.

(** [stats.hypergeom.sf(q, M, n, N)]: [P(X > q)] for [X] the number of
    successes when drawing [N] items without replacement from [M] items of
    which [n] are successes; NaN ([None]) when the parameters are invalid. *)
Definition hypergeom_sf (q : Z) (M good N : nat) : option Q :=
  if hypergeom_argcheck M good N
  then Some (Qmake (Z.of_nat (hypergeom_tail q M good N)) (Pos.of_nat (choose M N)))
  else None.

(** ** Pathway databases *)

Record Pathway := {
  name : string;
  genes : list string
}.

(** A Python value stored under a key: an integer, or a sized collection. *)
Inductive PyVal :=
| PyInt (z : Z)
| PyList (xs : list string).

(** [len(v)]: an integer has no length. *)
Definition py_len (v : PyVal) : result nat :=
  match v with
  | PyInt _ => Err TypeError
  | PyList xs => Ok (List.length xs)
  end.

(** The argument [pathway_db]: either a Python list of pathway dicts, or an
    object that iterates over pathway dicts and also answers the subscript
    ['total_genes'] (the database of the specification's data model). *)
Inductive PathwayDB :=
| DBList (ps : list Pathway)
| DBObject (ps : list Pathway) (total_genes : PyVal).

Definition db_iter (db : PathwayDB) : list Pathway :=
  match db with DBList ps => ps | DBObject ps _ => ps end.

(** [pathway_db['total_genes']]: a list cannot be subscripted by a string. *)
Definition db_total_genes (db : PathwayDB) : result PyVal :=
  match db with
  | DBList _ => Err TypeError
  | DBObject _ v => Ok v
  end.

(** [set(xs)]: the distinct elements. *)
Definition py_set (xs : list string) : list string := nodup string_dec xs.

(** [set(a) & set(b)]. *)
Definition set_inter (a b : list string) : list string :=
  List.filter (fun x => existsb (String.eqb x) (py_set b)) (py_set a).

Record EnrichmentResult := {
  r_pathway : string;
  r_overlap : nat;
  r_p_value : option Q
}.

(** The p-value the loop body computes for an overlap, lines 54-59. *)
Definition overlap_p_value (overlap M pathway_size sample_size : nat) : option Q :=
  hypergeom_sf (Z.of_nat overlap - 1) M pathway_size sample_size.

(** The loop of [calculate_pathway_enrichment], lines 50-65. *)
Fixpoint enrichment_loop (gene_list : list string) (db : PathwayDB) (ps : list Pathway)
  : result (list EnrichmentResult) :=
  match ps with
  | [] => Ok []
  | pathway :: rest =>
      let overlap := set_inter gene_list (genes pathway) in
      if Nat.ltb 0 (List.length overlap) then
        tg <- db_total_genes db ;;
        M <- py_len tg ;;
        let pv := overlap_p_value (List.length overlap) M
                    (List.length (genes pathway)) (List.length gene_list) in
        tl <- enrichment_loop gene_list db rest ;;
        Ok ({| r_pathway := name pathway; r_overlap := List.length overlap;
               r_p_value := pv |} :: tl)
      else enrichment_loop gene_list db rest
  end.

(** [calculate_pathway_enrichment(gene_list, pathway_db)], lines 47-67; the
    returned DataFrame is the list of its rows. *)
Definition calculate_pathway_enrichment (gene_list : list string) (db : PathwayDB)
  : result (list EnrichmentResult) :=
  enrichment_loop gene_list db (db_iter db).

(** ** The analysis session *)

(** A sequence of [run_analysis] calls on one object, the caller catching
    each exception: a failing call leaves the object unchanged. *)
Fixpoint run_session (self : ExpressionAnalyzer) (calls : list (Q * Q)) : ExpressionAnalyzer :=
  match calls with
  | [] => self
  | (pt, ft) :: rest =>
      match run_analysis self pt ft with
      | Ok (self', _) => run_session self' rest
      | Err _ => run_session self rest
      end
  end.

(** The filter's condition, as the specification words it. *)
Definition meets_thresholds (r : GeneRecord) (p_threshold fc_threshold : Q) : Prop :=
  exists p f, p_value r = Some p /\ fold_change r = Some f /\
              p < p_threshold /\ fc_threshold < Qabs f.

(** ** Facts about cells and masks *)

Lemma Qltb_spec (x y : Q) : Qltb x y = true <-> x < y.
Proof.
  unfold Qltb. rewrite negb_true_iff. split.
  - intro H. apply Qnot_le_lt. intro Hle.
    apply Qle_bool_iff in Hle. congruence.
  - intro H. destruct (Qle_bool y x) eqn:E; [|reflexivity].
    apply Qle_bool_iff in E. exfalso. apply (Qlt_not_le x y H E).
Qed.

Lemma filter_mask_spec (r : GeneRecord) (pt ft : Q) :
  (cell_lt (p_value r) pt && cell_gt (cell_abs (fold_change r)) ft) = true
  <-> meets_thresholds r pt ft.
Proof.
  unfold meets_thresholds, cell_lt, cell_gt, cell_abs.
  destruct (p_value r) as [p|], (fold_change r) as [f|]; simpl;
    rewrite ?andb_true_iff, ?Qltb_spec; split;
    try (intros [? ?]; discriminate); try discriminate;
    try (intros (? & ? & ? & ? & ?); discriminate).
  - intros [H1 H2]. exists p, f. repeat split; assumption.
  - intros (p' & f' & E1 & E2 & H1 & H2). injection E1 as <-. injection E2 as <-.
    split; assumption.
Qed.

Lemma filter_filter {A} (f : A -> bool) (l : list A) :
  List.filter f (List.filter f l) = List.filter f l.
Proof.
  induction l as [|x l IH]; simpl; [reflexivity|].
  destruct (f x) eqn:E; simpl; [rewrite E, IH|]; exact IH || reflexivity.
Qed.

Lemma filter_significant_genes_ok (d : DataFrame) (pt ft : Q) :
  has_column d "p_value" = true -> has_column d "fold_change" = true ->
  filter_significant_genes d pt ft =
    Ok (df_mask d (fun r => cell_lt (p_value r) pt && cell_gt (cell_abs (fold_change r)) ft)).
Proof.
  intros Hp Hf. unfold filter_significant_genes, get_column. rewrite Hp, Hf. reflexivity.
Qed.

Lemma filter_significant_genes_inv (d out : DataFrame) (pt ft : Q) :
  filter_significant_genes d pt ft = Ok out ->
  has_column d "p_value" = true /\ has_column d "fold_change" = true /\
  out = df_mask d (fun r => cell_lt (p_value r) pt && cell_gt (cell_abs (fold_change r)) ft).
Proof.
  unfold filter_significant_genes, get_column.
  destruct (has_column d "p_value"), (has_column d "fold_change"); simpl;
    try discriminate.
  intro H. injection H as <-. auto.
Qed.

Lemma filter_significant_genes_err (d : DataFrame) (pt ft : Q) :
  has_column d "p_value" = false \/ has_column d "fold_change" = false ->
  filter_significant_genes d pt ft = Err KeyError.
Proof.
  unfold filter_significant_genes, get_column.
  intros [H|H]; rewrite H; [reflexivity|].
  destruct (has_column d "p_value"); reflexivity.
Qed.

Lemma run_analysis_spec (st : ExpressionAnalyzer) (pt ft : Q) :
  run_analysis st pt ft =
    match filter_significant_genes (data st) pt ft with
    | Ok sg => Ok ({| data := data st; significant_genes := Some sg |}, sg)
    | Err e => Err e
    end.
Proof.
  unfold run_analysis. destruct (filter_significant_genes (data st) pt ft); reflexivity.
Qed.

(** ** Sample inputs: the specification's filter example *)

Definition example_genes : DataFrame :=
  {| columns := ["gene_id"; "p_value"; "fold_change"];
     rows := [ {| gene_id := "g1"; p_value := Some (1 # 100); fold_change := Some 2 |};
               {| gene_id := "g2"; p_value := Some (2 # 10); fold_change := Some 3 |};
               {| gene_id := "g3"; p_value := Some (1 # 100); fold_change := Some 1 |} ] |}.

Example example_genes_filtered :
  filter_significant_genes example_genes default_p_threshold default_fc_threshold =
  Ok {| columns := columns example_genes;
        rows := [ {| gene_id := "g1"; p_value := Some (1 # 100); fold_change := Some 2 |} ] |}.
Proof. reflexivity. Qed.

Definition example_filtered : DataFrame :=
  {| columns := columns example_genes;
     rows := [ {| gene_id := "g1"; p_value := Some (1 # 100); fold_change := Some 2 |} ] |}.

Definition example_analyzed : ExpressionAnalyzer :=
  {| data := example_genes; significant_genes := Some example_filtered |}.

(** ** Claims about the filter and the analyzer *)

(** C2: on a table with the [p_value] and [fold_change] columns, the filter
    returns, in input order, exactly the records with [p_value < p_threshold]
    and [abs(fold_change) > fc_threshold]; every excluded record violates one
    of the two strict conditions; an empty table gives an empty result. *)
Theorem filter_significant_genes_exact (d : DataFrame) (pt ft : Q)
  (Hp : has_column d "p_value" = true) (Hf : has_column d "fold_change" = true) :
  exists out, filter_significant_genes d pt ft = Ok out /\
    (exists keep, (forall r, keep r = true <-> meets_thresholds r pt ft) /\
                  rows out = List.filter keep (rows d)) /\
    (forall r, In r (rows out) -> meets_thresholds r pt ft) /\
    (forall r, In r (rows d) -> ~ In r (rows out) -> ~ meets_thresholds r pt ft) /\
    (rows d = [] -> rows out = []).
Proof.
  eexists. split; [apply filter_significant_genes_ok; assumption|].
  simpl. split; [|split; [|split]].
  - eexists. split; [intro r; apply filter_mask_spec | reflexivity].
  - intros r Hin. apply filter_In in Hin. apply filter_mask_spec, Hin.
  - intros r Hin Hout Hm. apply Hout, filter_In. split; [exact Hin|].
    apply filter_mask_spec, Hm.
  - intros ->. reflexivity.
Qed.

Lemma filter_significant_genes_exact_witness :
  has_column example_genes "p_value" = true /\
  has_column example_genes "fold_change" = true /\
  exists out, filter_significant_genes example_genes default_p_threshold default_fc_threshold = Ok out /\
    (exists keep, (forall r, keep r = true <-> meets_thresholds r default_p_threshold default_fc_threshold) /\
                  rows out = List.filter keep (rows example_genes)) /\
    (forall r, In r (rows out) -> meets_thresholds r default_p_threshold default_fc_threshold) /\
    (forall r, In r (rows example_genes) -> ~ In r (rows out) ->
               ~ meets_thresholds r default_p_threshold default_fc_threshold) /\
    (rows example_genes = [] -> rows out = []).
Proof.
  split; [reflexivity|]. split; [reflexivity|].
  apply filter_significant_genes_exact; reflexivity.
Defined.

(** C10: the filter is idempotent: filtering its own output with the same
    thresholds returns that output. *)
Theorem filter_significant_genes_idempotent (d out : DataFrame) (pt ft : Q)
  (H : filter_significant_genes d pt ft = Ok out) :
  filter_significant_genes out pt ft = Ok out.
Proof.
  destruct (filter_significant_genes_inv d out pt ft H) as (Hp & Hf & ->).
  rewrite filter_significant_genes_ok by (unfold has_column in *; simpl; assumption).
  unfold df_mask; simpl. rewrite filter_filter. reflexivity.
Qed.

Lemma filter_significant_genes_idempotent_witness :
  filter_significant_genes example_genes default_p_threshold default_fc_threshold =
    Ok {| columns := columns example_genes;
          rows := [ {| gene_id := "g1"; p_value := Some (1 # 100); fold_change := Some 2 |} ] |} /\
  filter_significant_genes
    {| columns := columns example_genes;
       rows := [ {| gene_id := "g1"; p_value := Some (1 # 100); fold_change := Some 2 |} ] |}
    default_p_threshold default_fc_threshold =
    Ok {| columns := columns example_genes;
          rows := [ {| gene_id := "g1"; p_value := Some (1 # 100); fold_change := Some 2 |} ] |}.
Proof.
  split; [reflexivity|].
  apply (filter_significant_genes_idempotent example_genes); reflexivity.
Defined.

Lemma run_session_data (calls : list (Q * Q)) (st : ExpressionAnalyzer) :
  data (run_session st calls) = data st.
Proof.
  revert st. induction calls as [|[pt ft] calls IH]; intro st; simpl; [reflexivity|].
  rewrite run_analysis_spec.
  destruct (filter_significant_genes (data st) pt ft); rewrite IH; reflexivity.
Qed.

Lemma run_session_missing_column (calls : list (Q * Q)) (st : ExpressionAnalyzer) :
  has_column (data st) "p_value" = false \/ has_column (data st) "fold_change" = false ->
  run_session st calls = st.
Proof.
  intro H. induction calls as [|[pt ft] calls IH]; simpl; [reflexivity|].
  rewrite run_analysis_spec, filter_significant_genes_err by exact H. exact IH.
Qed.

Lemma run_session_columns (calls : list (Q * Q)) (st : ExpressionAnalyzer) :
  has_column (data st) "p_value" = true -> has_column (data st) "fold_change" = true ->
  calls <> [] ->
  exists sg, significant_genes (run_session st calls) = Some sg /\
             columns sg = columns (data st).
Proof.
  intros Hp Hf. revert st Hp Hf.
  induction calls as [|[pt ft] calls IH]; intros st Hp Hf Hne; [congruence|].
  simpl. rewrite run_analysis_spec, filter_significant_genes_ok by assumption.
  destruct calls as [|c calls'].
  - simpl. eexists. split; reflexivity.
  - match goal with
    | |- exists _, significant_genes (run_session ?s _) = _ /\ _ =>
        destruct (IH s) as (sg & H1 & H2); [exact Hp | exact Hf | discriminate |]
    end.
    exists sg. split; [exact H1 | exact H2].
Qed.

Lemma get_summary_stats_some (st : ExpressionAnalyzer) (sg : DataFrame) :
  significant_genes st = Some sg -> has_column sg "fold_change" = true ->
  get_summary_stats st =
    Ok {| s_total_genes := df_len (data st); s_significant_genes := df_len sg;
          s_upregulated := df_len (df_mask sg (fun r => cell_gt (fold_change r) 0));
          s_downregulated := df_len (df_mask sg (fun r => cell_lt (fold_change r) 0)) |}.
Proof.
  intros Hs Hc. unfold get_summary_stats, get_column. rewrite Hs, Hc. reflexivity.
Qed.

(** Whether a record's fold change is a number strictly above, or strictly
    below, zero. *)
Definition fc_positive (r : GeneRecord) : bool :=
  match fold_change r with Some f => Qltb 0 f | None => false end.
Definition fc_negative (r : GeneRecord) : bool :=
  match fold_change r with Some f => Qltb f 0 | None => false end.

(** C5: after [run_analysis], [get_summary_stats] reports the dataset length,
    the filtered length, and the numbers of filtered records whose fold change
    is strictly positive and strictly negative; a record with fold change 0 is
    in neither count. *)
Theorem get_summary_stats_after_run (st st' : ExpressionAnalyzer) (sg : DataFrame) (pt ft : Q)
  (H : run_analysis st pt ft = Ok (st', sg)) :
  get_summary_stats st' =
    Ok {| s_total_genes := List.length (rows (data st));
          s_significant_genes := List.length (rows sg);
          s_upregulated := List.length (List.filter fc_positive (rows sg));
          s_downregulated := List.length (List.filter fc_negative (rows sg)) |} /\
  (forall r, fold_change r = Some 0 -> fc_positive r = false /\ fc_negative r = false).
Proof.
  split.
  - rewrite run_analysis_spec in H.
    destruct (filter_significant_genes (data st) pt ft) as [out|] eqn:E; [|discriminate].
    injection H as <- <-.
    destruct (filter_significant_genes_inv _ _ _ _ E) as (Hp & Hf & ->).
    rewrite (get_summary_stats_some _ (df_mask (data st) _)) by
      (reflexivity || (unfold has_column in *; simpl; assumption)).
    reflexivity.
  - intros r Hr. unfold fc_positive, fc_negative. rewrite Hr. split; reflexivity.
Qed.

Lemma get_summary_stats_after_run_witness :
  run_analysis (ExpressionAnalyzer_init example_genes) default_p_threshold default_fc_threshold =
    Ok (example_analyzed, example_filtered) /\
  get_summary_stats example_analyzed =
    Ok {| s_total_genes := 3; s_significant_genes := 1; s_upregulated := 1; s_downregulated := 0 |}.
Proof.
  split; [reflexivity|].
  destruct (get_summary_stats_after_run (ExpressionAnalyzer_init example_genes)
              example_analyzed example_filtered
              default_p_threshold default_fc_threshold) as [H _]; [reflexivity|].
  rewrite H. reflexivity.
Defined.

(** The specification's summary example: fold changes 2.0, -1.0 and 0. *)
Example summary_stats_example :
  get_summary_stats
    {| data := example_genes;
       significant_genes := Some {| columns := ["fold_change"];
         rows := [ {| gene_id := "a"; p_value := None; fold_change := Some 2 |};
                   {| gene_id := "b"; p_value := None; fold_change := Some (-1) |};
                   {| gene_id := "c"; p_value := None; fold_change := Some 0 |} ] |} |} =
  Ok {| s_total_genes := 3; s_significant_genes := 3; s_upregulated := 1; s_downregulated := 1 |}.
Proof. reflexivity. Qed.

(** C6 (counterexample): on a fresh analyzer [get_summary_stats] raises
    TypeError ([len(None)]), not NotYetAnalyzedError. *)
Lemma get_summary_stats_fresh_not_NotYetAnalyzed :
  get_summary_stats (ExpressionAnalyzer_init example_genes) = Err TypeError /\
  get_summary_stats (ExpressionAnalyzer_init example_genes) <> Err NotYetAnalyzedError.
Proof. split; [reflexivity | discriminate]. Qed.

(** C6 (as the code behaves): [get_summary_stats] never raises
    NotYetAnalyzedError; while no call of [run_analysis] has succeeded it
    raises TypeError, and a call fails (so nothing is stored) exactly when the
    dataset lacks the [p_value] or [fold_change] column; after at least one
    successful call it succeeds. *)
Theorem get_summary_stats_session (d : DataFrame) (calls : list (Q * Q)) :
  (forall st, get_summary_stats st <> Err NotYetAnalyzedError) /\
  get_summary_stats (ExpressionAnalyzer_init d) = Err TypeError /\
  ((has_column d "p_value" = false \/ has_column d "fold_change" = false) ->
     get_summary_stats (run_session (ExpressionAnalyzer_init d) calls) = Err TypeError) /\
  (has_column d "p_value" = true -> has_column d "fold_change" = true -> calls <> [] ->
     exists s, get_summary_stats (run_session (ExpressionAnalyzer_init d) calls) = Ok s).
Proof.
  split; [|split; [reflexivity|split]].
  - intros st. unfold get_summary_stats, get_column.
    destruct (significant_genes st) as [sg|]; [|discriminate].
    destruct (has_column sg "fold_change"); discriminate.
  - intros H. rewrite run_session_missing_column by exact H. reflexivity.
  - intros Hp Hf Hne.
    destruct (run_session_columns calls (ExpressionAnalyzer_init d)) as (sg & Hs & Hc);
      try assumption.
    eexists. apply get_summary_stats_some with (sg := sg); [exact Hs|].
    unfold has_column in *. rewrite Hc. exact Hf.
Qed.

(** C8 (counterexample): a table without the [fold_change] column makes the
    filter raise pandas' KeyError, not MissingFieldError. *)
Lemma filter_missing_column_KeyError :
  filter_significant_genes {| columns := ["gene_id"; "p_value"]; rows := [] |}
    default_p_threshold default_fc_threshold = Err KeyError /\
  filter_significant_genes {| columns := ["gene_id"; "p_value"]; rows := [] |}
    default_p_threshold default_fc_threshold <> Err MissingFieldError.
Proof. split; [reflexivity | discriminate]. Qed.

(** C8 (as the code behaves): the filter never raises MissingFieldError; it
    raises KeyError exactly when the table lacks the [p_value] or the
    [fold_change] column; with both columns it succeeds, and a record whose
    value in one of them is missing (NaN) is dropped rather than reported. *)
Theorem filter_significant_genes_errors (d : DataFrame) (pt ft : Q) :
  filter_significant_genes d pt ft <> Err MissingFieldError /\
  (filter_significant_genes d pt ft = Err KeyError <->
     has_column d "p_value" = false \/ has_column d "fold_change" = false) /\
  (has_column d "p_value" = true -> has_column d "fold_change" = true ->
     exists out, filter_significant_genes d pt ft = Ok out /\
       forall r, In r (rows d) -> (p_value r = None \/ fold_change r = None) ->
                 ~ In r (rows out)).
Proof.
  split; [|split].
  - unfold filter_significant_genes, get_column.
    destruct (has_column d "p_value"), (has_column d "fold_change"); discriminate.
  - split.
    + unfold filter_significant_genes, get_column.
      destruct (has_column d "p_value"), (has_column d "fold_change"); simpl;
        try discriminate; auto.
    + apply filter_significant_genes_err.
  - intros Hp Hf. eexists. split; [apply filter_significant_genes_ok; assumption|].
    intros r _ Hnan Hin. simpl in Hin. apply filter_In in Hin as [_ Hm].
    apply filter_mask_spec in Hm as (p & f & E1 & E2 & _).
    destruct Hnan as [E|E]; congruence.
Qed.

(** C9: [run_analysis] keeps the stored dataset and replaces only the stored
    result; a second call recomputes the filter from the same dataset with its
    own thresholds and overwrites the first result; the filtered records are
    the input's own records, unchanged, and the input is left as it was. *)
Theorem run_analysis_frame (st st1 : ExpressionAnalyzer) (s1 : DataFrame) (pt1 ft1 : Q)
  (H : run_analysis st pt1 ft1 = Ok (st1, s1)) :
  data st1 = data st /\ significant_genes st1 = Some s1 /\
  filter_significant_genes (data st) pt1 ft1 = Ok s1 /\
  columns s1 = columns (data st) /\
  (forall r, In r (rows s1) -> In r (rows (data st))) /\
  (forall pt2 ft2,
     run_analysis st1 pt2 ft2 =
       match filter_significant_genes (data st) pt2 ft2 with
       | Ok s2 => Ok ({| data := data st; significant_genes := Some s2 |}, s2)
       | Err e => Err e
       end).
Proof.
  rewrite run_analysis_spec in H.
  destruct (filter_significant_genes (data st) pt1 ft1) as [out|] eqn:E; [|discriminate].
  injection H as <- <-. simpl.
  destruct (filter_significant_genes_inv _ _ _ _ E) as (_ & _ & Hout).
  split; [reflexivity|]. split; [reflexivity|]. split; [reflexivity|].
  split; [rewrite Hout; reflexivity|]. split.
  - intros r Hin. rewrite Hout in Hin. apply filter_In in Hin. apply Hin.
  - intros pt2 ft2. rewrite run_analysis_spec. reflexivity.
Qed.

Lemma run_analysis_frame_witness :
  run_analysis (ExpressionAnalyzer_init example_genes) default_p_threshold default_fc_threshold =
    Ok (example_analyzed, example_filtered) /\
  run_analysis example_analyzed 1 0 =
    Ok ({| data := example_genes; significant_genes := Some example_genes |}, example_genes).
Proof.
  split; [reflexivity|].
  destruct (run_analysis_frame (ExpressionAnalyzer_init example_genes) example_analyzed
              example_filtered default_p_threshold default_fc_threshold)
    as (_ & _ & _ & _ & _ & H2); [reflexivity|].
  rewrite H2. reflexivity.
Defined.

(** ** Sums and binomial coefficients *)

Open Scope nat_scope.

Lemma sum_to_ext (f g : nat -> nat) (n : nat) :
  (forall j, j <= n -> f j = g j) -> sum_to f n = sum_to g n.
Proof.
  induction n as [|n IH]; intro H; simpl.
  - apply H. lia.
  - rewrite IH by (intros; apply H; lia). rewrite H by lia. reflexivity.
Qed.

Lemma sum_to_le (f g : nat -> nat) (n : nat) :
  (forall j, j <= n -> f j <= g j) -> sum_to f n <= sum_to g n.
Proof.
  induction n as [|n IH]; intro H; simpl.
  - apply H. lia.
  - assert (sum_to f n <= sum_to g n) by (apply IH; intros; apply H; lia).
    assert (f (S n) <= g (S n)) by (apply H; lia). lia.
Qed.

Lemma sum_to_add (f g : nat -> nat) (n : nat) :
  sum_to (fun j => f j + g j) n = sum_to f n + sum_to g n.
Proof. induction n as [|n IH]; simpl; [reflexivity|]. rewrite IH. lia. Qed.

Lemma sum_to_zero (n : nat) : sum_to (fun _ => 0) n = 0.
Proof. induction n as [|n IH]; simpl; [reflexivity|]. rewrite IH. reflexivity. Qed.

(** Peeling off the first term. *)
Lemma sum_to_shift (f : nat -> nat) (n : nat) :
  sum_to f (S n) = f 0 + sum_to (fun j => f (S j)) n.
Proof. induction n as [|n IH]; simpl in *; [reflexivity|]. rewrite IH. lia. Qed.

Lemma choose_n_0 (n : nat) : choose n 0 = 1.
Proof. destruct n; reflexivity. Qed.

Lemma choose_pos (n k : nat) : k <= n -> 0 < choose n k.
Proof.
  revert k. induction n as [|n IH]; intros [|k] Hk; simpl; try lia.
  assert (0 < choose n k) by (apply IH; lia). lia.
Qed.

(** Vandermonde's identity. *)
Lemma vandermonde (a b n : nat) :
  sum_to (fun j => choose a j * choose b (n - j)) n = choose (a + b) n.
Proof.
  revert b n. induction a as [|a IH]; intros b n.
  - destruct n as [|n]; [simpl; lia|].
    rewrite sum_to_shift.
    rewrite (sum_to_ext _ (fun _ => 0)) by (intros; reflexivity).
    rewrite sum_to_zero. simpl. lia.
  - rewrite (sum_to_ext _
      (fun j => choose a j * choose b (n - j) +
                match j with O => 0 | S i => choose a i * choose b (n - S i) end)).
    2:{ intros [|i] _; simpl; rewrite ?choose_n_0; lia. }
    rewrite sum_to_add, IH.
    destruct n as [|n]; [simpl; rewrite ?choose_n_0; lia|].
    rewrite sum_to_shift.
    rewrite (sum_to_ext _ (fun i => choose a i * choose b (n - i))) by
      (intros; reflexivity).
    rewrite IH. simpl. lia.
Qed.

(** The weights of all outcomes sum to the number of draws. *)
Lemma hypergeom_weight_total (M good N : nat) :
  good <= M -> sum_to (hypergeom_weight M good N) N = choose M N.
Proof.
  intro H. unfold hypergeom_weight. rewrite vandermonde.
  f_equal. lia.
Qed.

Lemma hypergeom_tail_le (q : Z) (M good N : nat) :
  good <= M -> hypergeom_tail q M good N <= choose M N.
Proof.
  intro H. rewrite <- (hypergeom_weight_total M good N H).
  apply sum_to_le. intros j _. destruct (Z.ltb q (Z.of_nat j)); lia.
Qed.

Lemma hypergeom_tail_antitone (q1 q2 : Z) (M good N : nat) :
  (q1 <= q2)%Z -> hypergeom_tail q2 M good N <= hypergeom_tail q1 M good N.
Proof.
  intro H. apply sum_to_le. intros j _.
  destruct (Z.ltb q2 (Z.of_nat j)) eqn:E2; [|lia].
  apply Z.ltb_lt in E2.
  replace (Z.ltb q1 (Z.of_nat j)) with true by (symmetry; apply Z.ltb_lt; lia).
  lia.
Qed.

Lemma pos_of_nat_Z (n : nat) : 0 < n -> Z.pos (Pos.of_nat n) = Z.of_nat n.
Proof.
  intro H. rewrite <- positive_nat_Z, Nat2Pos.id by lia. reflexivity.
Qed.

(** The survival function is a probability whenever scipy accepts its
    parameters, and NaN exactly when it does not. *)
Lemma hypergeom_sf_bounds (q : Z) (M good N : nat) :
  (forall p, hypergeom_sf q M good N = Some p -> (0 <= p /\ p <= 1)%Q) /\
  (hypergeom_sf q M good N = None <-> ~ (0 < M /\ good <= M /\ N <= M)).
Proof.
  unfold hypergeom_sf, hypergeom_argcheck.
  destruct (Nat.ltb 0 M) eqn:E1, (Nat.leb good M) eqn:E2, (Nat.leb N M) eqn:E3;
    simpl; rewrite ?Nat.ltb_lt, ?Nat.ltb_ge, ?Nat.leb_le, ?Nat.leb_gt in *;
    (split; [intros p Hp; try discriminate|]); try (split; [discriminate | lia]);
    try (split; [intros _; lia | reflexivity]).
  injection Hp as <-.
  assert (Hc : 0 < choose M N) by (apply choose_pos; exact E3).
  pose proof (hypergeom_tail_le q M good N E2).
  unfold Qle; simpl. rewrite pos_of_nat_Z by exact Hc. lia.
Qed.

(** ** The enrichment loop *)

Lemma set_inter_nil_r (a : list string) : set_inter a [] = [].
Proof.
  unfold set_inter. simpl. induction (py_set a) as [|x l IH]; simpl; [reflexivity|].
  exact IH.
Qed.

Lemma set_inter_nil_l (b : list string) : set_inter [] b = [].
Proof. reflexivity. Qed.

Lemma enrichment_loop_err (gl : list string) (db : PathwayDB) (ps : list Pathway) (e : PyError) :
  enrichment_loop gl db ps = Err e -> e = TypeError.
Proof.
  induction ps as [|pw ps IH]; simpl; [discriminate|].
  destruct (Nat.ltb 0 (List.length (set_inter gl (genes pw)))); [|exact IH].
  destruct db as [qs|qs [z|xs]]; simpl; try (intro H; injection H as <-; reflexivity).
  destruct (enrichment_loop gl (DBObject qs (PyList xs)) ps); simpl;
    [discriminate | exact IH].
Qed.

Lemma enrichment_loop_results (gl : list string) (db : PathwayDB) (ps : list Pathway)
  (rs : list EnrichmentResult) :
  enrichment_loop gl db ps = Ok rs ->
  forall r, In r rs ->
    exists pw M, In pw ps /\ (tg <- db_total_genes db ;; py_len tg) = Ok M /\
      0 < List.length (set_inter gl (genes pw)) /\
      r = {| r_pathway := name pw;
             r_overlap := List.length (set_inter gl (genes pw));
             r_p_value := overlap_p_value (List.length (set_inter gl (genes pw))) M
                            (List.length (genes pw)) (List.length gl) |}.
Proof.
  revert rs. induction ps as [|pw ps IH]; intros rs H r Hin;
    cbn -[Nat.ltb db_total_genes py_len set_inter overlap_p_value] in H.
  - injection H as <-. destruct Hin.
  - destruct (Nat.ltb 0 (List.length (set_inter gl (genes pw)))) eqn:Eov.
    + destruct (db_total_genes db) as [tg|] eqn:Etg; cbn in H; [|discriminate].
      destruct (py_len tg) as [M|] eqn:EM; cbn in H; [|discriminate].
      destruct (enrichment_loop gl db ps) as [tl|] eqn:Etl; simpl in H; [|discriminate].
      injection H as <-. destruct Hin as [<-|Hin].
      * exists pw, M. apply Nat.ltb_lt in Eov.
        split; [left; reflexivity|]. split; [cbn; exact EM|].
        split; [exact Eov | reflexivity].
      * destruct (IH tl eq_refl r Hin) as (pw' & M' & Hpw & HM & Hov & Hr).
        exists pw', M'. split; [right; exact Hpw | auto].
    + destruct (IH rs H r Hin) as (pw' & M' & Hpw & HM & Hov & Hr).
      exists pw', M'. split; [right; exact Hpw | auto].
Qed.

Lemma enrichment_loop_empty_gene_list (db : PathwayDB) (ps : list Pathway) :
  enrichment_loop [] db ps = Ok [].
Proof. induction ps as [|pw ps IH]; simpl; [reflexivity | exact IH]. Qed.

(** ** Sample pathway databases: the specification's enrichment example *)

Definition example_pathway : Pathway :=
  {| name := "P1"; genes := ["B"; "C"; "D"; "E"] |}.

Definition unrelated_pathway : Pathway :=
  {| name := "P2"; genes := ["X"; "Y"] |}.

Definition example_gene_list : list string := ["A"; "B"; "C"].

(** With a background collection of 100 genes, [len] of it is 100 and the
    p-value is [P(X >= 2)] for [X ~ Hypergeom(100, 4, 3)], i.e. 580/161700. *)
Example enrichment_with_background_collection :
  calculate_pathway_enrichment example_gene_list
    (DBObject [example_pathway; unrelated_pathway] (PyList (repeat "g" 100))) =
  Ok [ {| r_pathway := "P1"; r_overlap := 2; r_p_value := Some (580 # 161700) |} ].
Proof. vm_compute. reflexivity. Qed.

(** ** Claims about the enrichment *)

(** C1 (code bug): with [total_genes] an integer, as the specification's
    database holds it, the code takes [len] of it and raises TypeError instead
    of emitting [P(X >= 2)] for [X ~ Hypergeom(100, 4, 3)]; a plain list of
    pathways fails the same way at the subscript.  Only when [total_genes] is
    a collection of 100 items is that p-value (580/161700) produced. *)
Theorem enrichment_integer_total_genes_TypeError :
  calculate_pathway_enrichment example_gene_list
    (DBObject [example_pathway] (PyInt 100)) = Err TypeError /\
  calculate_pathway_enrichment example_gene_list (DBList [example_pathway]) = Err TypeError /\
  calculate_pathway_enrichment example_gene_list
    (DBObject [example_pathway] (PyList (repeat "g" 100))) =
    Ok [ {| r_pathway := "P1"; r_overlap := 2; r_p_value := Some (580 # 161700) |} ].
Proof. split; [reflexivity | split; [reflexivity | vm_compute; reflexivity]]. Qed.

(** C3 (code bug): a database with one pathway of overlap 2 and one of
    overlap 0 and an integer [total_genes] yields no result at all but a
    TypeError; an empty gene list does yield an empty result for every
    database. *)
Theorem enrichment_results_TypeError :
  calculate_pathway_enrichment example_gene_list
    (DBObject [example_pathway; unrelated_pathway] (PyInt 100)) = Err TypeError /\
  List.length (set_inter example_gene_list (genes example_pathway)) = 2 /\
  (forall db, calculate_pathway_enrichment [] db = Ok []).
Proof.
  split; [reflexivity | split; [reflexivity|]].
  intro db. apply enrichment_loop_empty_gene_list.
Qed.

(** C4: for fixed population, pathway and sample sizes, the p-value the
    enrichment computes from an overlap does not increase as the overlap
    increases. *)
Theorem overlap_p_value_antitone (M pathway_size sample_size k1 k2 : nat) (p1 p2 : Q)
  (Hk : k1 <= k2)
  (H1 : overlap_p_value k1 M pathway_size sample_size = Some p1)
  (H2 : overlap_p_value k2 M pathway_size sample_size = Some p2) :
  (p2 <= p1)%Q.
Proof.
  unfold overlap_p_value, hypergeom_sf in *.
  destruct (hypergeom_argcheck M pathway_size sample_size); [|discriminate].
  injection H1 as <-. injection H2 as <-.
  unfold Qle; simpl.
  apply Z.mul_le_mono_nonneg_r; [lia|].
  apply Nat2Z.inj_le, hypergeom_tail_antitone. lia.
Qed.

Lemma overlap_p_value_antitone_witness :
  overlap_p_value 1 100 4 3 = Some (18820 # 161700) /\
  overlap_p_value 2 100 4 3 = Some (580 # 161700) /\
  (580 # 161700 <= 18820 # 161700)%Q.
Proof.
  assert (H1 : overlap_p_value 1 100 4 3 = Some (18820 # 161700)) by (vm_compute; reflexivity).
  assert (H2 : overlap_p_value 2 100 4 3 = Some (580 # 161700)) by (vm_compute; reflexivity).
  split; [exact H1|]. split; [exact H2|].
  apply (overlap_p_value_antitone 100 4 3 1 2); [lia | exact H1 | exact H2].
Defined.

(** C7 (counterexample): a background of 2 genes, smaller than the pathway
    (4 genes) and the sample (3 genes), raises nothing: the pathway is reported
    with a NaN p-value. *)
Lemma enrichment_small_population_no_error :
  calculate_pathway_enrichment example_gene_list
    (DBObject [example_pathway] (PyList ["g1"; "g2"])) =
    Ok [ {| r_pathway := "P1"; r_overlap := 2; r_p_value := None |} ] /\
  calculate_pathway_enrichment example_gene_list
    (DBObject [example_pathway] (PyList ["g1"; "g2"])) <> Err InvalidDistributionParameters.
Proof. split; [reflexivity | discriminate]. Qed.

(** C7 (as the code behaves): the enrichment never raises
    InvalidDistributionParameters, since it checks nothing about the
    population size [M] it passes to the survival function; each emitted
    p-value is a number in [0, 1] when [M] is at least the pathway size and
    the sample size, and NaN otherwise. *)
Theorem enrichment_no_parameter_check (gl : list string) (db : PathwayDB) :
  calculate_pathway_enrichment gl db <> Err InvalidDistributionParameters /\
  (forall rs r, calculate_pathway_enrichment gl db = Ok rs -> In r rs ->
     exists pw M, In pw (db_iter db) /\ (tg <- db_total_genes db ;; py_len tg) = Ok M /\
       r_pathway r = name pw /\
       (List.length (genes pw) <= M -> List.length gl <= M ->
          exists p, r_p_value r = Some p /\ (0 <= p /\ p <= 1)%Q) /\
       (M < List.length (genes pw) \/ M < List.length gl -> r_p_value r = None)).
Proof.
  split.
  - intro H. apply enrichment_loop_err in H. discriminate.
  - intros rs r H Hin.
    destruct (enrichment_loop_results gl db (db_iter db) rs H r Hin)
      as (pw & M & Hpw & HM & Hov & ->).
    exists pw, M. split; [exact Hpw|]. split; [exact HM|]. split; [reflexivity|].
    simpl. unfold overlap_p_value.
    destruct (hypergeom_sf_bounds (Z.of_nat (List.length (set_inter gl (genes pw))) - 1)
                M (List.length (genes pw)) (List.length gl)) as [Hb Hnan].
    assert (Hg : 0 < List.length (genes pw)).
    { destruct (genes pw) eqn:E; [|simpl; lia].
      rewrite set_inter_nil_r in Hov. simpl in Hov. lia. }
    split.
    + intros HK Hn.
      destruct (hypergeom_sf _ M (List.length (genes pw)) (List.length gl)) as [p|] eqn:Es.
      * exists p. split; [reflexivity | apply Hb; reflexivity].
      * exfalso. apply Hnan; [reflexivity|]. lia.
    + intro Hlt. apply Hnan. lia.
Qed.

(** ** Further properties of the filter *)

Lemma filter_and {A} (f g : A -> bool) (l : list A) :
  List.filter g (List.filter f l) = List.filter (fun x => f x && g x) l.
Proof.
  induction l as [|x l IH]; simpl; [reflexivity|].
  destruct (f x); simpl; [destruct (g x); simpl; rewrite IH|]; reflexivity || exact IH.
Qed.

Lemma cell_lt_min (c : option Q) (a b : Q) :
  cell_lt c (Qmin a b) = cell_lt c a && cell_lt c b.
Proof.
  destruct c as [x|]; simpl; [|reflexivity].
  apply Bool.eq_iff_eq_true. rewrite andb_true_iff, !Qltb_spec.
  apply Q.min_glb_lt_iff.
Qed.

Lemma cell_gt_max (c : option Q) (a b : Q) :
  cell_gt c (Qmax a b) = cell_gt c a && cell_gt c b.
Proof.
  destruct c as [x|]; simpl; [|reflexivity].
  apply Bool.eq_iff_eq_true. rewrite andb_true_iff, !Qltb_spec.
  apply Q.max_lub_lt_iff.
Qed.

(** Filtering a filtered table again is one filter with the stricter of each
    pair of thresholds. *)
Theorem filter_significant_genes_compose (d out : DataFrame) (pt1 ft1 pt2 ft2 : Q)
  (H : filter_significant_genes d pt1 ft1 = Ok out) :
  filter_significant_genes out pt2 ft2 =
  filter_significant_genes d (Qmin pt1 pt2) (Qmax ft1 ft2).
Proof.
  destruct (filter_significant_genes_inv d out pt1 ft1 H) as (Hp & Hf & ->).
  rewrite filter_significant_genes_ok by (unfold has_column in *; simpl; assumption).
  rewrite filter_significant_genes_ok by assumption.
  unfold df_mask; simpl. rewrite filter_and. f_equal. f_equal.
  apply filter_ext. intro r. rewrite cell_lt_min, cell_gt_max.
  destruct (cell_lt (p_value r) pt1), (cell_lt (p_value r) pt2),
           (cell_gt (cell_abs (fold_change r)) ft1),
           (cell_gt (cell_abs (fold_change r)) ft2); reflexivity.
Qed.

Lemma filter_significant_genes_compose_witness :
  filter_significant_genes example_genes 1 0 = Ok example_genes /\
  filter_significant_genes example_genes default_p_threshold default_fc_threshold =
  filter_significant_genes example_genes (Qmin 1 default_p_threshold) (Qmax 0 default_fc_threshold).
Proof.
  assert (H : filter_significant_genes example_genes 1 0 = Ok example_genes) by reflexivity.
  split; [exact H|].
  exact (filter_significant_genes_compose example_genes example_genes 1 0
           default_p_threshold default_fc_threshold H).
Defined.

(** The filter works row by row: on two tables with the same columns, the
    rows it keeps from their concatenation are the rows it keeps from the
    first followed by those it keeps from the second. *)
Theorem filter_significant_genes_app (cols : list string) (rs1 rs2 : list GeneRecord)
  (pt ft : Q) :
  filter_significant_genes {| columns := cols; rows := rs1 ++ rs2 |} pt ft =
  match filter_significant_genes {| columns := cols; rows := rs1 |} pt ft,
        filter_significant_genes {| columns := cols; rows := rs2 |} pt ft with
  | Ok o1, Ok o2 => Ok {| columns := cols; rows := rows o1 ++ rows o2 |}
  | Err e, _ => Err e
  | _, Err e => Err e
  end.
Proof.
  unfold filter_significant_genes, get_column, has_column. cbn [columns].
  destruct (existsb (String.eqb "p_value") cols),
           (existsb (String.eqb "fold_change") cols); cbn [bind]; try reflexivity.
  unfold df_mask; cbn [rows columns]. rewrite filter_app. reflexivity.
Qed.

(** ** Further properties of the analyzer *)

Lemma run_session_app (calls1 calls2 : list (Q * Q)) (st : ExpressionAnalyzer) :
  run_session st (calls1 ++ calls2) = run_session (run_session st calls1) calls2.
Proof.
  revert st. induction calls1 as [|[pt ft] calls1 IH]; intro st; simpl; [reflexivity|].
  destruct (run_analysis st pt ft) as [[st' _]|]; apply IH.
Qed.

(** The last call of a session decides the stored result when it succeeds;
    when it fails, the result stored by the earlier calls stays; the dataset
    never changes. *)
Theorem run_session_last_call (st : ExpressionAnalyzer) (calls : list (Q * Q)) (pt ft : Q) :
  data (run_session st (calls ++ [(pt, ft)])) = data st /\
  significant_genes (run_session st (calls ++ [(pt, ft)])) =
    match filter_significant_genes (data st) pt ft with
    | Ok s => Some s
    | Err _ => significant_genes (run_session st calls)
    end.
Proof.
  split; [apply run_session_data|].
  rewrite run_session_app. simpl. rewrite run_analysis_spec, run_session_data.
  destruct (filter_significant_genes (data st) pt ft); reflexivity.
Qed.

Lemma run_session_sig (calls : list (Q * Q)) (st : ExpressionAnalyzer) :
  significant_genes (run_session st calls) = significant_genes st \/
  exists pt ft sg, filter_significant_genes (data st) pt ft = Ok sg /\
                   significant_genes (run_session st calls) = Some sg.
Proof.
  revert st. induction calls as [|[pt ft] calls IH]; intro st; simpl; [left; reflexivity|].
  rewrite run_analysis_spec.
  destruct (filter_significant_genes (data st) pt ft) as [sg|] eqn:E; [|apply IH].
  destruct (IH {| data := data st; significant_genes := Some sg |}) as [H|(pt' & ft' & sg' & H1 & H2)].
  - right. exists pt, ft, sg. split; [exact E | exact H].
  - right. exists pt', ft', sg'. split; [exact H1 | exact H2].
Qed.

Lemma filter_length_le' {A} (f : A -> bool) (l : list A) :
  List.length (List.filter f l) <= List.length l.
Proof. induction l as [|x l IH]; simpl; [lia|]. destruct (f x); simpl; lia. Qed.

Lemma filter_disjoint_length {A} (f g : A -> bool) (l : list A) :
  (forall x, In x l -> f x && g x = false) ->
  List.length (List.filter f l) + List.length (List.filter g l) <= List.length l.
Proof.
  induction l as [|x l IH]; intro H; simpl; [lia|].
  assert (Hx := H x (or_introl eq_refl)).
  assert (IH' := IH (fun y Hy => H y (or_intror Hy))).
  destruct (f x), (g x); simpl in *; try discriminate; lia.
Qed.

Lemma filter_partition_length {A} (f g : A -> bool) (l : list A) :
  (forall x, In x l -> g x = negb (f x)) ->
  List.length (List.filter f l) + List.length (List.filter g l) = List.length l.
Proof.
  induction l as [|x l IH]; intro H; simpl; [lia|].
  assert (Hx := H x (or_introl eq_refl)).
  assert (IH' := IH (fun y Hy => H y (or_intror Hy))).
  rewrite Hx. destruct (f x); simpl; lia.
Qed.

Lemma up_down_exclusive (r : GeneRecord) :
  cell_gt (fold_change r) 0 && cell_lt (fold_change r) 0 = false.
Proof.
  destruct (fold_change r) as [x|]; simpl; [|reflexivity].
  destruct (Qltb 0 x) eqn:E1, (Qltb x 0) eqn:E2; try reflexivity.
  apply Qltb_spec in E1, E2. exfalso. apply (Qlt_irrefl 0). exact (Qlt_trans _ _ _ E1 E2).
Qed.

(** In every summary an analysis session produces, the up- and
    down-regulated counts add up to at most the significant count, which is at
    most the number of input genes. *)
Theorem get_summary_stats_bounds (d : DataFrame) (calls : list (Q * Q)) (s : SummaryStats)
  (H : get_summary_stats (run_session (ExpressionAnalyzer_init d) calls) = Ok s) :
  s_upregulated s + s_downregulated s <= s_significant_genes s /\
  s_significant_genes s <= s_total_genes s.
Proof.
  destruct (run_session_sig calls (ExpressionAnalyzer_init d)) as [Hs|(pt & ft & sg & E & Hs)].
  - unfold get_summary_stats in H. rewrite Hs in H. discriminate.
  - destruct (filter_significant_genes_inv _ _ _ _ E) as (_ & Hf & Hsg).
    rewrite (get_summary_stats_some _ sg Hs) in H.
    2:{ rewrite Hsg. exact Hf. }
    injection H as <-. simpl. rewrite run_session_data. simpl.
    unfold df_len, df_mask; simpl. split.
    + apply filter_disjoint_length. intros r _. apply up_down_exclusive.
    + rewrite Hsg. apply filter_length_le'.
Qed.

Lemma get_summary_stats_bounds_witness :
  get_summary_stats (run_session (ExpressionAnalyzer_init example_genes)
                       [(default_p_threshold, default_fc_threshold)]) =
    Ok {| s_total_genes := 3; s_significant_genes := 1; s_upregulated := 1; s_downregulated := 0 |} /\
  (1 + 0 <= 1 /\ 1 <= 3).
Proof.
  assert (H : get_summary_stats (run_session (ExpressionAnalyzer_init example_genes)
                [(default_p_threshold, default_fc_threshold)]) =
              Ok {| s_total_genes := 3; s_significant_genes := 1;
                    s_upregulated := 1; s_downregulated := 0 |}) by reflexivity.
  split; [exact H|].
  exact (get_summary_stats_bounds example_genes _ _ H).
Defined.

(** With a non-negative fold-change threshold every significant gene has a
    non-zero fold change, so the up- and down-regulated counts add up to the
    significant count. *)
Theorem get_summary_stats_partition (st st' : ExpressionAnalyzer) (sg : DataFrame) (pt ft : Q)
  (H : run_analysis st pt ft = Ok (st', sg)) (Hft : (0 <= ft)%Q) :
  exists s, get_summary_stats st' = Ok s /\
            s_upregulated s + s_downregulated s = s_significant_genes s.
Proof.
  rewrite run_analysis_spec in H.
  destruct (filter_significant_genes (data st) pt ft) as [out|] eqn:E; [|discriminate].
  injection H as <- <-.
  destruct (filter_significant_genes_inv _ _ _ _ E) as (_ & Hf & Hout).
  eexists. split.
  - apply get_summary_stats_some; [reflexivity|]. rewrite Hout. exact Hf.
  - simpl. unfold df_len, df_mask; simpl.
    apply filter_partition_length. intros r Hin.
    rewrite Hout in Hin. apply filter_In in Hin as [_ Hm].
    apply filter_mask_spec in Hm as (p & x & _ & Ex & _ & Habs).
    rewrite Ex. simpl.
    destruct (Qltb 0 x) eqn:E1; simpl.
    + destruct (Qltb x 0) eqn:E2; [|reflexivity].
      apply Qltb_spec in E1, E2. exfalso. apply (Qlt_irrefl 0).
      exact (Qlt_trans _ _ _ E1 E2).
    + apply Qltb_spec. destruct (Qlt_le_dec x 0) as [Hlt|Hge]; [exact Hlt|].
      exfalso. assert (Hx : x == 0).
      { apply Qle_antisym; [|exact Hge].
        apply Qnot_lt_le. intro Hc. apply Qltb_spec in Hc. congruence. }
      rewrite Hx in Habs. simpl in Habs.
      apply (Qlt_irrefl 0). exact (Qle_lt_trans _ _ _ Hft Habs).
Qed.

Lemma get_summary_stats_partition_witness :
  (0 <= default_fc_threshold)%Q /\
  exists s, get_summary_stats example_analyzed = Ok s /\
            s_upregulated s + s_downregulated s = s_significant_genes s.
Proof.
  assert (Hft : (0 <= default_fc_threshold)%Q) by (unfold Qle; simpl; lia).
  split; [exact Hft|].
  apply (get_summary_stats_partition (ExpressionAnalyzer_init example_genes)
           example_analyzed example_filtered default_p_threshold default_fc_threshold);
    [reflexivity | exact Hft].
Defined.

(** ** Further properties of the enrichment *)

(** [len(overlap) > 0] for a pathway. *)
Definition has_overlap (gene_list : list string) (pathway : Pathway) : bool :=
  Nat.ltb 0 (List.length (set_inter gene_list (genes pathway))).

(** The row the loop appends for a pathway, given [M = len(total_genes)]. *)
Definition enrichment_row (gene_list : list string) (M : nat) (pathway : Pathway)
  : EnrichmentResult :=
  {| r_pathway := name pathway;
     r_overlap := List.length (set_inter gene_list (genes pathway));
     r_p_value := overlap_p_value (List.length (set_inter gene_list (genes pathway))) M
                    (List.length (genes pathway)) (List.length gene_list) |}.

Lemma enrichment_loop_spec (gl : list string) (db : PathwayDB) (ps : list Pathway) :
  enrichment_loop gl db ps =
  match (tg <- db_total_genes db ;; py_len tg) with
  | Ok M => Ok (map (enrichment_row gl M) (List.filter (has_overlap gl) ps))
  | Err e => if existsb (has_overlap gl) ps then Err e else Ok []
  end.
Proof.
  induction ps as [|pw ps IH].
  - simpl. destruct (tg <- db_total_genes db ;; py_len tg); reflexivity.
  - cbn [enrichment_loop List.filter existsb].
    change (Nat.ltb 0 (List.length (set_inter gl (genes pw)))) with (has_overlap gl pw).
    destruct (has_overlap gl pw) eqn:Eh; [|exact IH].
    cbn [orb]. rewrite IH.
    destruct (db_total_genes db) as [tg|e]; cbn [bind]; [|reflexivity].
    destruct (py_len tg) as [M|e]; cbn [bind]; reflexivity.
Qed.

(** The whole behaviour of [calculate_pathway_enrichment]: when
    [len(pathway_db['total_genes'])] evaluates to [M], the result has one row
    per pathway with a non-empty overlap, in database order, with the overlap
    size and the p-value [sf(overlap - 1, M, len(genes), len(gene_list))];
    when that expression raises, the call raises the same error as soon as a
    pathway overlaps the gene list, and returns no rows otherwise. *)
Theorem calculate_pathway_enrichment_spec (gene_list : list string) (db : PathwayDB) :
  calculate_pathway_enrichment gene_list db =
  match (tg <- db_total_genes db ;; py_len tg) with
  | Ok M => Ok (map (enrichment_row gene_list M) (List.filter (has_overlap gene_list) (db_iter db)))
  | Err e => if existsb (has_overlap gene_list) (db_iter db) then Err e else Ok []
  end.
Proof. apply enrichment_loop_spec. Qed.

Lemma py_set_length (xs : list string) : List.length (py_set xs) <= List.length xs.
Proof.
  apply NoDup_incl_length; [apply NoDup_nodup|].
  intros x Hx. apply nodup_In in Hx. exact Hx.
Qed.

Lemma set_inter_length (a b : list string) :
  List.length (set_inter a b) <= List.length (py_set a) /\
  List.length (set_inter a b) <= List.length (py_set b).
Proof.
  assert (Hnd : NoDup (set_inter a b)) by (apply NoDup_filter, NoDup_nodup).
  split; apply NoDup_incl_length; try exact Hnd; intros x Hx;
    unfold set_inter in Hx; apply filter_In in Hx as [Ha Hb]; [exact Ha|].
  apply existsb_exists in Hb as (y & Hy & Exy).
  apply String.eqb_eq in Exy. subst y. exact Hy.
Qed.

(** Every reported overlap is positive and at most the number of distinct
    genes of the gene list and of the pathway, hence at most [len(gene_list)]
    and [len(pathway['genes'])], the sample and success sizes passed to the
    survival function. *)
Theorem enrichment_overlap_bounds (gl : list string) (db : PathwayDB)
  (rs : list EnrichmentResult) (r : EnrichmentResult)
  (H : calculate_pathway_enrichment gl db = Ok rs) (Hin : In r rs) :
  exists pw, In pw (db_iter db) /\ r_pathway r = name pw /\
    0 < r_overlap r /\
    r_overlap r <= List.length (py_set gl) <= List.length gl /\
    r_overlap r <= List.length (py_set (genes pw)) <= List.length (genes pw).
Proof.
  destruct (enrichment_loop_results gl db (db_iter db) rs H r Hin)
    as (pw & M & Hpw & _ & Hov & ->).
  exists pw. simpl. split; [exact Hpw|]. split; [reflexivity|]. split; [exact Hov|].
  destruct (set_inter_length gl (genes pw)) as [H1 H2].
  pose proof (py_set_length gl). pose proof (py_set_length (genes pw)).
  repeat split; assumption.
Qed.

Lemma enrichment_overlap_bounds_witness :
  calculate_pathway_enrichment example_gene_list
    (DBObject [example_pathway; unrelated_pathway] (PyList (repeat "g" 100))) =
    Ok [ {| r_pathway := "P1"; r_overlap := 2; r_p_value := Some (580 # 161700) |} ] /\
  exists pw, In pw [example_pathway; unrelated_pathway] /\ "P1" = name pw /\
    0 < 2 /\ 2 <= List.length (py_set example_gene_list) <= List.length example_gene_list /\
    2 <= List.length (py_set (genes pw)) <= List.length (genes pw).
Proof.
  assert (H : calculate_pathway_enrichment example_gene_list
    (DBObject [example_pathway; unrelated_pathway] (PyList (repeat "g" 100))) =
    Ok [ {| r_pathway := "P1"; r_overlap := 2; r_p_value := Some (580 # 161700) |} ])
    by (vm_compute; reflexivity).
  split; [exact H|].
  exact (enrichment_overlap_bounds _ _ _ _ H (or_introl eq_refl)).
Defined.

Lemma nodup_app_incl (l1 l2 : list string) :
  incl l1 l2 -> nodup string_dec (l1 ++ l2) = nodup string_dec l2.
Proof.
  induction l1 as [|x l1 IH]; intro H; simpl; [reflexivity|].
  destruct (in_dec string_dec x (l1 ++ l2)) as [_|Hn].
  - apply IH. intros y Hy. apply H. right. exact Hy.
  - exfalso. apply Hn, in_or_app. right. apply H. left. reflexivity.
Qed.

Lemma set_inter_dup (gl b : list string) : set_inter (gl ++ gl) b = set_inter gl b.
Proof.
  unfold set_inter, py_set. rewrite nodup_app_incl by (intros y Hy; exact Hy).
  reflexivity.
Qed.

Lemma existsb_ext' {A} (f g : A -> bool) (l : list A) :
  (forall x, f x = g x) -> existsb f l = existsb g l.
Proof. intro H. induction l as [|x l IH]; simpl; [reflexivity|]. rewrite H, IH. reflexivity. Qed.

(** A gene listed twice in [gene_list] counts once in every overlap (the
    overlap is taken between sets) but twice in the sample size
    [len(gene_list)] passed to the survival function. *)
Theorem enrichment_duplicated_gene_list (gl : list string) (db : PathwayDB) :
  calculate_pathway_enrichment (gl ++ gl) db =
  match (tg <- db_total_genes db ;; py_len tg) with
  | Ok M => Ok (map (fun pw =>
      {| r_pathway := name pw;
         r_overlap := List.length (set_inter gl (genes pw));
         r_p_value := overlap_p_value (List.length (set_inter gl (genes pw))) M
                        (List.length (genes pw)) (2 * List.length gl) |})
      (List.filter (has_overlap gl) (db_iter db)))
  | Err e => if existsb (has_overlap gl) (db_iter db) then Err e else Ok []
  end.
Proof.
  unfold calculate_pathway_enrichment. rewrite enrichment_loop_spec.
  assert (Hh : forall pw, has_overlap (gl ++ gl) pw = has_overlap gl pw)
    by (intro pw; unfold has_overlap; rewrite set_inter_dup; reflexivity).
  rewrite (filter_ext _ _ Hh), (existsb_ext' _ _ _ Hh).
  destruct (tg <- db_total_genes db ;; py_len tg) as [M|e]; [|reflexivity].
  f_equal. apply map_ext. intro pw. unfold enrichment_row.
  rewrite set_inter_dup, length_app. f_equal. f_equal. lia.
Qed.
